(** * The summarisation backend of [app.py]: the [/send_api] handler

    A shallow embedding of the request handler [send_api] of [src/app.py]
    and the properties of its validation, extraction, prompt construction
    and error mapping.

    Python values are embedded as an inductive type, Python strings as lists
    of Unicode code points, and the handler as a program in a small
    writer/exception monad: the writer records, in order, every logging call,
    the [time.sleep], the article download and the chat completion request,
    together with what the outside world answered. *)

From Stdlib Require Import List NArith ZArith Bool Lia.
From Stdlib Require Import Strings.String Strings.Ascii Strings.Byte.
From Stdlib Require Import Floats.SpecFloat.
Import ListNotations.

Set Implicit Arguments.

(** [len(l) == 0]: the test behind the truth value of a sequence. *)
Definition is_nil {A : Type} (l : list A) : bool :=
  match l with [] => true | _ => false end.

(** ** Python strings *)

Module PyStr.

(** A Python [str] is a sequence of Unicode code points. *)
Definition str : Type := list N.

(** The source file is UTF-8: its literals are decoded to code points. *)
Fixpoint decode (bs : list N) : str :=
  match bs with
  | [] => []
  | b :: r1 =>
      if (b <? 0x80)%N then b :: decode r1
      else match r1 with
           | [] => [b]
           | b1 :: r2 =>
               if (b <? 0xE0)%N then
                 (N.lor (N.shiftl (N.land b 0x1F) 6) (N.land b1 0x3F))
                   :: decode r2
               else match r2 with
                    | [] => [b; b1]
                    | b2 :: r3 =>
                        if (b <? 0xF0)%N then
                          (N.lor (N.shiftl (N.land b 0x0F) 12)
                             (N.lor (N.shiftl (N.land b1 0x3F) 6)
                                    (N.land b2 0x3F)))
                            :: decode r3
                        else match r3 with
                             | [] => [b; b1; b2]
                             | b3 :: r4 =>
                                 (N.lor (N.shiftl (N.land b 0x07) 18)
                                    (N.lor (N.shiftl (N.land b1 0x3F) 12)
                                       (N.lor (N.shiftl (N.land b2 0x3F) 6)
                                              (N.land b3 0x3F))))
                                   :: decode r4
                             end
                    end
           end
  end.

Definition utf8 (s : string) : str :=
  decode (map Byte.to_N (list_byte_of_string s)).

Definition eqb (a b : str) : bool :=
  if list_eq_dec N.eq_dec a b then true else false.

(** [Py_UNICODE_ISSPACE]: the code points that [str.strip()] removes. *)
Definition isspace (c : N) : bool :=
  ((0x09 <=? c) && (c <=? 0x0D)
   || (0x1C <=? c) && (c <=? 0x20)
   || (c =? 0x85) || (c =? 0xA0) || (c =? 0x1680)
   || (0x2000 <=? c) && (c <=? 0x200A)
   || (c =? 0x2028) || (c =? 0x2029) || (c =? 0x202F)
   || (c =? 0x205F) || (c =? 0x3000))%N.

Fixpoint lstrip (s : str) : str :=
  match s with
  | [] => []
  | c :: r => if isspace c then lstrip r else s
  end.

Definition rstrip (s : str) : str := rev (lstrip (rev s)).

(** [s.strip()] *)
Definition strip (s : str) : str := rstrip (lstrip s).

Fixpoint starts_with (p s : str) : bool :=
  match p, s with
  | [], _ => true
  | a :: p', b :: s' => (a =? b)%N && starts_with p' s'
  | _ :: _, [] => false
  end.

(** [k in s] for two strings: [k] occurs in [s] as a substring. *)
Fixpoint contains (k s : str) : bool :=
  starts_with k s ||
  match s with
  | [] => false
  | _ :: s' => contains k s'
  end.

End PyStr.

Import PyStr.

(** ** Python values, as [request.get_json()] produces them *)

#[local] Set Warnings "-register-all".

Inductive value : Type :=
| VNone
| VBool (b : bool)
| VInt (z : Z)
| VFloat (f : spec_float)
| VStr (s : str)
| VList (l : list value)
| VDict (d : list (str * value)).

(** Truth value testing, as [if], [and] and [not] apply it. *)
Definition truthy (v : value) : bool :=
  match v with
  | VNone => false
  | VBool b => b
  | VInt z => negb (z =? 0)%Z
  | VFloat (S754_zero _) => false
  | VFloat _ => true
  | VStr s => negb (is_nil s)
  | VList l => negb (is_nil l)
  | VDict d => negb (is_nil d)
  end.

Definition as_str (v : value) : option str :=
  match v with VStr s => Some s | _ => None end.

(** [v == s] for a string [s]: only an equal string compares equal. *)
Definition eq_str (v : value) (s : str) : bool :=
  match as_str v with Some t => PyStr.eqb t s | None => false end.

Fixpoint lookup {A : Type} (k : str) (d : list (str * A)) : option A :=
  match d with
  | [] => None
  | (k', v) :: r => if PyStr.eqb k' k then Some v else lookup k r
  end.

(** The field [k] of a request body, when the body is an object. *)
Definition field (k : str) (data : value) : option value :=
  match data with VDict d => lookup k d | _ => None end.

Definition type_name (v : value) : str :=
  match v with
  | VNone => utf8 "NoneType"
  | VBool _ => utf8 "bool"
  | VInt _ => utf8 "int"
  | VFloat _ => utf8 "float"
  | VStr _ => utf8 "str"
  | VList _ => utf8 "list"
  | VDict _ => utf8 "dict"
  end.

(** ** Exceptions, responses and the events of a request *)

Inductive exn_class : Type :=
| AttributeError
| TypeError
| KeyError
| RateLimitError
| OtherException (name : str).

(** An instance of [Exception], the class both [except Exception] clauses
    catch; [exn_msg e] is [str(e)]. [RateLimitError] stands for the class
    of the [openai] package and its subclasses. *)
Record exn : Type := Exn { exn_cls : exn_class; exn_msg : str }.

Definition is_rate_limit (e : exn) : bool :=
  match exn_cls e with RateLimitError => true | _ => false end.

(** What the view function returns: a JSON body and a status code. *)
Record response : Type := Response { body : value; status : N }.

Record ChatCompletionMessage : Type := Message { content : option str }.
Record Choice : Type := MkChoice { message : option ChatCompletionMessage }.
Record ChatCompletion : Type := Completion { choices : option (list Choice) }.

(** The request that [client.chat.completions.create] sends. *)
Record chat_request : Type := ChatRequest {
  base_url : str;
  api_key : str;
  default_headers : list (str * str);
  model : str;
  messages : list (str * str)   (* role, content *)
}.

Inductive level : Type := INFO | WARNING | ERROR.

Inductive event : Type :=
| EvLog (l : level) (msg : str)
| EvSleep (seconds : N)
| EvExtract (url : str) (r : str + exn)
| EvChat (q : chat_request) (r : ChatCompletion + exn).

Definition is_extract (ev : event) : bool :=
  match ev with EvExtract _ _ => true | _ => false end.

Definition is_chat (ev : event) : bool :=
  match ev with EvChat _ _ => true | _ => false end.

(** No article is downloaded and no completion is requested. *)
Definition no_outbound (tr : list event) : bool :=
  forallb (fun ev => negb (is_extract ev || is_chat ev)) tr.

Definition no_chat (tr : list event) : bool :=
  forallb (fun ev => negb (is_chat ev)) tr.

Definition user_content (q : chat_request) : list str :=
  map snd (messages q).

(** The prompts handed to the summarisation call, in order. *)
Fixpoint prompts (tr : list event) : list str :=
  match tr with
  | [] => []
  | EvChat q _ :: r => user_content q ++ prompts r
  | _ :: r => prompts r
  end.

(** ** The monad of the handler *)

Module Run.

Definition M (A : Type) : Type := (A + exn) * list event.

Definition ret {A} (a : A) : M A := (inl a, []).

Definition raise {A} (e : exn) : M A := (inr e, []).

Definition bind {A B} (m : M A) (f : A -> M B) : M B :=
  match m with
  | (inl a, t) => let (r, t') := f a in (r, t ++ t')
  | (inr e, t) => (inr e, t)
  end.

Definition emit (ev : event) : M unit := (inl tt, [ev]).

(** [try: m  except Exception as e: h e] *)
Definition try_except {A} (m : M A) (h : exn -> M A) : M A :=
  match m with
  | (inr e, t) => let (r, t') := h e in (r, t ++ t')
  | ok => ok
  end.

(** [a and b]: [b] is evaluated only when [a] is true. *)
Definition and_ (a b : M value) : M value :=
  bind a (fun v => if truthy v then b else ret v).

End Run.

Import Run.

Declare Scope py_scope.
Delimit Scope py_scope with py.
Notation "x <- c1 ;; c2" := (bind c1 (fun x => c2))
  (at level 100, c1 at next level, right associativity) : py_scope.
Notation "c1 ;; c2" := (bind c1 (fun _ => c2))
  (at level 100, right associativity) : py_scope.
Local Open Scope py_scope.

(** ** Operations on values that can raise *)

Definition q (s : string) : str := utf8 s.

Definition no_attribute (v : value) (attr : str) : exn :=
  Exn AttributeError
      (q "'" ++ type_name v ++ q "' object has no attribute '" ++ attr ++ q "'").

(** [data.get(k)] *)
Definition get_method (data : value) (k : str) : M value :=
  match data with
  | VDict d => ret (match lookup k d with Some v => v | None => VNone end)
  | _ => raise (no_attribute data (q "get"))
  end.

(** [k in data], for a string [k] *)
Definition contains_key (k : str) (data : value) : M value :=
  match data with
  | VDict d => ret (VBool (match lookup k d with Some _ => true | None => false end))
  | VList l => ret (VBool (existsb (fun v => eq_str v k) l))
  | VStr s => ret (VBool (PyStr.contains k s))
  | _ => raise (Exn TypeError
                  (q "argument of type '" ++ type_name data ++ q "' is not iterable"))
  end.

(** [data[k]], for a string [k] *)
Definition getitem (data : value) (k : str) : M value :=
  match data with
  | VDict d =>
      match lookup k d with
      | Some v => ret v
      | None => raise (Exn KeyError (q "'" ++ k ++ q "'"))
      end
  | VList _ => raise (Exn TypeError (q "list indices must be integers or slices, not str"))
  | VStr _ => raise (Exn TypeError (q "string indices must be integers, not 'str'"))
  | _ => raise (Exn TypeError (q "'" ++ type_name data ++ q "' object is not subscriptable"))
  end.

(** [v.strip()]: only a [str] has the method. *)
Definition strip_method (v : value) : M str :=
  match as_str v with
  | Some s => ret (strip s)
  | None => raise (no_attribute v (q "strip"))
  end.

(** A string inside an f-string is itself. The handler formats only values
    on which [.strip()] has already succeeded, which are strings. *)
Definition format_str (v : value) : str :=
  match as_str v with Some s => s | None => [] end.

(** ** The constants of [app.py] *)

Definition k_text : str := Eval vm_compute in utf8 "text".
Definition k_url : str := Eval vm_compute in utf8 "url".
Definition k_context : str := Eval vm_compute in utf8 "context".
Definition k_error : str := Eval vm_compute in utf8 "error".
Definition k_message : str := Eval vm_compute in utf8 "message".
Definition k_processed_text : str := Eval vm_compute in utf8 "processed_text".

Definition DEBUG_MOCK : str := Eval vm_compute in utf8 "DEBUG_MOCK".

Definition MOCK_MESSAGE : str :=
  Eval vm_compute in utf8 "This is a mock response.".
Definition MOCK_PROCESSED_TEXT : str :=
  Eval vm_compute in
    utf8 "これはモック（偽の）応答です。API制限を消費せずに開発を続けるために使用します。UIの動作確認にご利用ください。".

Definition NO_KEY_ERROR : str :=
  Eval vm_compute in utf8 "OpenRouter API key is not configured on the server.".
Definition EXTRACT_EMPTY_ERROR : str :=
  Eval vm_compute in
    utf8 "URLから本文を抽出できませんでした。記事形式のページでない可能性があります。".
Definition EXTRACT_FAILED_ERROR : str :=
  Eval vm_compute in utf8 "URLの処理中に予期せぬエラーが発生しました。".
Definition NO_INPUT_ERROR : str :=
  Eval vm_compute in utf8 "要約するテキストまたはURLを入力してください。".
Definition RATE_LIMIT_ERROR : str :=
  Eval vm_compute in
    utf8 "APIの利用回数制限に達しました。時間をおいてから再度お試しください。".
Definition PROVIDER_ERROR : str :=
  Eval vm_compute in utf8 "AIサービスとの通信中にエラーが発生しました。".

Definition DEFAULT_SYSTEM_PROMPT : str :=
  Eval vm_compute in utf8 "あなたは役立つアシスタントです。".
Definition PROMPT_SEPARATOR : str := [10; 10; 45; 45; 45; 10; 10]%N.
Definition SUCCESS_MESSAGE : str :=
  Eval vm_compute in utf8 "AIによってデータが処理されました。".
Definition NO_CONTENT_PLACEHOLDER : str :=
  Eval vm_compute in utf8 "AIから有効な応答がありませんでした。".

Definition OPENROUTER_BASE_URL : str :=
  Eval vm_compute in utf8 "https://openrouter.ai/api/v1".
Definition MODEL_NAME : str :=
  Eval vm_compute in utf8 "google/gemma-3-27b-it:free".

(** ** The outside world of one request *)

Record world : Type := World {
  (** [os.environ], after [load_dotenv()] *)
  environ : list (str * str);
  (** [Article(url)], [download()], [parse()], then [.text]: the text of
      the article, or the exception one of the steps raises *)
  article_text : str -> str + exn;
  (** [client.chat.completions.create]: the completion, or the exception
      the client raises *)
  completions_create : chat_request -> ChatCompletion + exn
}.

(** The two ways a block of the view function ends: with [return], or by
    falling through with the value the rest of the function uses. *)
Inductive flow (A : Type) : Type :=
| Return (r : response)
| Continue (a : A).
Arguments Return {A} r.
Arguments Continue {A} a.

(** [jsonify(d)], and [jsonify(d), code] *)
Definition jsonify (d : list (str * value)) : value := VDict d.

Section Handler.

Variable w : world.

Definition getenv (k : str) : option str := lookup k (environ w).

Definition getenv_default (k dflt : str) : str :=
  match getenv k with Some v => v | None => dflt end.

Definition OPENROUTER_API_KEY : option str := getenv (q "OPENROUTER_API_KEY").
Definition SITE_URL : str :=
  getenv_default (q "YOUR_SITE_URL") (q "http://localhost:5000").
Definition APP_NAME : str :=
  getenv_default (q "YOUR_APP_NAME") (q "FlaskVueApp").

(** [not OPENROUTER_API_KEY]: the variable is unset, or set to [""] *)
Definition key_missing : bool :=
  match OPENROUTER_API_KEY with
  | Some k => is_nil k
  | None => true
  end.

Definition log (l : level) (msg : str) : M unit := emit (EvLog l msg).

(** [time.sleep(n)] *)
Definition sleep (n : N) : M unit := emit (EvSleep n).

(** [article = Article(url); article.download(); article.parse();
    article.text] *)
Definition newspaper_text (url : str) : M str :=
  (article_text w url, [EvExtract url (article_text w url)]).

(** The [OpenAI] client of the handler, and its one call. *)
Definition client_request (full_prompt : str) : chat_request :=
  {| base_url := OPENROUTER_BASE_URL;
     api_key := match OPENROUTER_API_KEY with Some k => k | None => [] end;
     default_headers := [(q "HTTP-Referer", SITE_URL); (q "X-Title", APP_NAME)];
     model := MODEL_NAME;
     messages := [(q "user", full_prompt)] |}.

Definition chat_completions_create (full_prompt : str) : M ChatCompletion :=
  let rq := client_request full_prompt in
  (completions_create w rq, [EvChat rq (completions_create w rq)]).

(** [data and data.get('text') == 'DEBUG_MOCK'] *)
Definition mock_condition (data : value) : M value :=
  and_ (ret data)
       (v <- get_method data k_text ;; ret (VBool (eq_str v DEBUG_MOCK))).

(** [data and k in data and data[k].strip()] *)
Definition field_condition (k : str) (data : value) : M value :=
  and_ (ret data)
       (and_ (contains_key k data)
             (v <- getitem data k ;; s <- strip_method v ;; ret (VStr s))).

(** ['context' in data and data['context'] and data['context'].strip()] *)
Definition context_condition (data : value) : M value :=
  and_ (contains_key k_context data)
       (and_ (getitem data k_context)
             (v <- getitem data k_context ;; s <- strip_method v ;; ret (VStr s))).

(** Lines 84-99: the [url] branch. *)
Definition url_branch (data : value) : M (flow value) :=
  v <- getitem data k_url ;;
  url <- strip_method v ;;
  log INFO (q "Received URL for summarization: " ++ url) ;;
  try_except
    (received_text <- newspaper_text url ;;
     if negb (truthy (VStr (strip received_text))) then
       log WARNING (q "Could not extract text from URL using newspaper3k: " ++ url) ;;
       ret (Return (Response (jsonify [(k_error, VStr EXTRACT_EMPTY_ERROR)]) 400))
     else
       ret (Continue (VStr received_text)))
    (fun e =>
       log ERROR (q "URLの処理中に予期せぬエラーが発生しました (newspaper3k): " ++ url
                    ++ q ", Error: " ++ exn_msg e) ;;
       ret (Return (Response (jsonify [(k_error, VStr EXTRACT_FAILED_ERROR)]) 500))).

(** Lines 80-108: what the request asks to summarise. *)
Definition received (data : value) : M (flow value) :=
  c_url <- field_condition k_url data ;;
  if truthy c_url then url_branch data
  else
    c_text <- field_condition k_text data ;;
    if truthy c_text then
      v <- getitem data k_text ;; ret (Continue v)
    else
      log ERROR (q "Request JSON is missing 'text' or 'url' field, or they are empty.") ;;
      ret (Return (Response (jsonify [(k_error, VStr NO_INPUT_ERROR)]) 400)).

(** Lines 111-116: the system prompt. *)
Definition system_prompt_of (data : value) : M str :=
  c <- context_condition data ;;
  if truthy c then
    v <- getitem data k_context ;;
    system_prompt <- strip_method v ;;
    log INFO (q "Using custom system prompt from context: " ++ system_prompt) ;;
    ret system_prompt
  else
    log INFO (q "Using default system prompt: " ++ DEFAULT_SYSTEM_PROMPT) ;;
    ret DEFAULT_SYSTEM_PROMPT.

(** Lines 135-138: the text of the first choice, or the placeholder. *)
Definition processed_text_of (chat_completion : ChatCompletion) : value :=
  match choices chat_completion with
  | Some (c0 :: _) =>
      match message c0 with
      | Some m =>
          match content m with
          | Some s => VStr s
          | None => VNone
          end
      | None => VStr NO_CONTENT_PLACEHOLDER
      end
  | _ => VStr NO_CONTENT_PLACEHOLDER
  end.

(** Lines 118-149: the call of the model and the mapping of its errors. *)
Definition summarize (system_prompt : str) (received_text : value) : M response :=
  try_except
    (let full_prompt :=
       system_prompt ++ PROMPT_SEPARATOR ++ format_str received_text in
     chat_completion <- chat_completions_create full_prompt ;;
     ret (Response
            (jsonify [(k_message, VStr SUCCESS_MESSAGE);
                      (k_processed_text, processed_text_of chat_completion)])
            200))
    (fun e =>
       if is_rate_limit e then
         log WARNING (q "OpenRouter API rate limit exceeded: " ++ exn_msg e) ;;
         ret (Response (jsonify [(k_error, VStr RATE_LIMIT_ERROR)]) 429)
       else
         log ERROR (q "OpenRouter API call failed: " ++ exn_msg e) ;;
         ret (Response (jsonify [(k_error, VStr PROVIDER_ERROR)]) 500)).

(** [send_api()], with [data = request.get_json()]. The result is the
    response the view returns, or the exception that leaves it (which Flask
    turns into its own 500 page). The key is tested before the body is
    read; a body that [get_json()] itself rejects yields no [data] and is
    not a run of this function. *)
Definition send_api (data : value) : M response :=
  if key_missing then
    log ERROR (q "OpenRouter API key not configured.") ;;
    ret (Response (jsonify [(k_error, VStr NO_KEY_ERROR)]) 500)
  else
    mock <- mock_condition data ;;
    if truthy mock then
      log INFO (q "Returning a mock response for debugging.") ;;
      sleep 1 ;;
      ret (Response
             (jsonify [(k_message, VStr MOCK_MESSAGE);
                       (k_processed_text, VStr MOCK_PROCESSED_TEXT)])
             200)
    else
      r <- received data ;;
      match r with
      | Return resp => ret resp
      | Continue received_text =>
          system_prompt <- system_prompt_of data ;;
          summarize system_prompt received_text
      end.

End Handler.

(** ** Reading a run *)

Definition run_result (m : M response) : response + exn := fst m.
Definition run_trace (m : M response) : list event := snd m.

(** The field [k] cannot be used: it is absent, or a string that is empty
    once stripped. *)
Definition missing_or_blank (k : str) (data : value) : bool :=
  match field k data with
  | None => true
  | Some v => match as_str v with Some s => is_nil (strip s) | None => false end
  end.

(** The body is a JSON object, or a value that tests false ([null]). *)
Definition object_or_empty (data : value) : bool :=
  match data with VDict _ => true | _ => negb (truthy data) end.

(** The value is false, or a string that is empty once stripped. *)
Definition blank_value (v : value) : bool :=
  negb (truthy v)
  || match as_str v with Some s => is_nil (strip s) | None => false end.


(** The message of the first choice of a completion, when it has one. *)
Definition first_message (cc : ChatCompletion) : option ChatCompletionMessage :=
  match choices cc with
  | Some (c0 :: _) => message c0
  | _ => None
  end.

(** The text content the model returned, when there is any. *)
Definition model_content (cc : ChatCompletion) : option str :=
  match first_message cc with
  | Some m => content m
  | None => None
  end.

(** The same dictionary without the key [k]. *)
Fixpoint remove_key {A : Type} (k : str) (d : list (str * A)) : list (str * A) :=
  match d with
  | [] => []
  | (k', v) :: r =>
      if PyStr.eqb k' k then remove_key k r else (k', v) :: remove_key k r
  end.

Definition without_context (data : value) : value :=
  match data with
  | VDict d => VDict (remove_key k_context d)
  | _ => data
  end.

Definition error_response (msg : str) (code : N) : response :=
  Response (jsonify [(k_error, VStr msg)]) code.

Definition mock_response : response :=
  Response (jsonify [(k_message, VStr MOCK_MESSAGE);
                     (k_processed_text, VStr MOCK_PROCESSED_TEXT)]) 200.

Definition success_response (processed_text : value) : response :=
  Response (jsonify [(k_message, VStr SUCCESS_MESSAGE);
                     (k_processed_text, processed_text)]) 200.

(** ** Sample worlds and requests *)

Definition configured_environ : list (str * str) :=
  [(q "OPENROUTER_API_KEY", q "sk-or-v1-test")].

Definition summary_completion : ChatCompletion :=
  Completion (Some [MkChoice (Some (Message (Some (q "summary"))))]).

Definition null_content_completion : ChatCompletion :=
  Completion (Some [MkChoice (Some (Message None))]).

Definition article_exception : exn :=
  Exn (OtherException (q "ArticleException")) (q "Article `download()` failed").

Definition rate_limit_error : exn :=
  Exn RateLimitError (q "Error code: 429").

Definition connection_error : exn :=
  Exn (OtherException (q "APIConnectionError")) (q "Connection error.").

Definition w_ok : world :=
  World configured_environ
        (fun _ => inl (q "article body"))
        (fun _ => inl summary_completion).

Definition w_no_key : world :=
  World [] (article_text w_ok) (completions_create w_ok).

Definition w_blank_article : world :=
  World configured_environ (fun _ => inl (q " ")) (completions_create w_ok).

Definition w_download_fails : world :=
  World configured_environ (fun _ => inr article_exception)
        (completions_create w_ok).

Definition w_rate_limited : world :=
  World configured_environ (article_text w_ok) (fun _ => inr rate_limit_error).

Definition w_provider_down : world :=
  World configured_environ (article_text w_ok) (fun _ => inr connection_error).

Definition w_null_content : world :=
  World configured_environ (article_text w_ok)
        (fun _ => inl null_content_completion).

Definition w_no_choices : world :=
  World configured_environ (article_text w_ok)
        (fun _ => inl (Completion (Some []))).

Definition w_no_message : world :=
  World configured_environ (article_text w_ok)
        (fun _ => inl (Completion (Some [MkChoice None]))).

Definition news_url : str := q "https://example.com/news".

Definition req_url_and_text : value :=
  VDict [(k_url, VStr (q " https://example.com/news "));
         (k_text, VStr (q "raw text"))].

Definition req_mock : value :=
  VDict [(k_text, VStr DEBUG_MOCK);
         (k_url, VStr news_url);
         (k_context, VStr (q "be brief"))].

Definition req_empty : value := VDict [].

Definition req_blank : value :=
  VDict [(k_url, VStr (q "  ")); (k_text, VStr (q ""))].

Definition req_text : value := VDict [(k_text, VStr (q "raw text"))].

Definition req_padded : value :=
  VDict [(k_text, VStr (q " raw text ")); (k_context, VStr (q " be brief"))].

Definition req_blank_context : value :=
  VDict [(k_text, VStr (q "raw text")); (k_context, VStr (q "   "))].

(** ** Further readings of a run *)

(** The outbound calls of a run, in order. *)
Definition outbound (tr : list event) : list event :=
  filter (fun ev => is_extract ev || is_chat ev) tr.

(** A logging call above [INFO]. *)
Definition is_alarm (ev : event) : bool :=
  match ev with
  | EvLog WARNING _ | EvLog ERROR _ => true
  | _ => false
  end.

(** The error responses the view can return. *)
Definition error_responses : list response :=
  [error_response NO_KEY_ERROR 500;
   error_response EXTRACT_EMPTY_ERROR 400;
   error_response EXTRACT_FAILED_ERROR 500;
   error_response NO_INPUT_ERROR 400;
   error_response RATE_LIMIT_ERROR 429;
   error_response PROVIDER_ERROR 500].

(** The field [k] is absent or holds a string. *)
Definition str_or_absent (k : str) (data : value) : bool :=
  match field k data with
  | None => true
  | Some v => match as_str v with Some _ => true | None => false end
  end.

(** The body has the types the handler expects: an object (or a value that
    tests false) whose [url] and [text], when present, are strings and
    whose [context], when present, is a string or tests false. *)
Definition well_typed (data : value) : bool :=
  object_or_empty data
  && str_or_absent k_url data
  && str_or_absent k_text data
  && match field k_context data with
     | None => true
     | Some v => negb (truthy v)
                 || match as_str v with Some _ => true | None => false end
     end.

Definition req_url_only : value :=
  VDict [(k_url, VStr (q " https://example.com/news "))].

Definition req_bad_context : value :=
  VDict [(k_text, VStr (q "raw text")); (k_context, VInt 5)].

Definition req_array : value := VList [VInt 1].

(** ** Basic facts *)

Lemma eqb_refl (s : str) : PyStr.eqb s s = true.
Proof. unfold PyStr.eqb. destruct (list_eq_dec N.eq_dec s s); congruence. Qed.

Lemma eqb_eq (a b : str) : PyStr.eqb a b = true -> a = b.
Proof. unfold PyStr.eqb. destruct (list_eq_dec N.eq_dec a b); congruence. Qed.

Lemma lookup_remove_other A (k c : str) (d : list (str * A)) :
  PyStr.eqb k c = false -> lookup k (remove_key c d) = lookup k d.
Proof.
  intros N. induction d as [|[k' v] d IH]; [reflexivity|].
  cbn. destruct (PyStr.eqb k' c) eqn:C, (PyStr.eqb k' k) eqn:K; cbn;
    rewrite ?K; auto.
  apply eqb_eq in C, K. subst. rewrite eqb_refl in N. discriminate.
Qed.

Lemma lookup_remove_same A (c : str) (d : list (str * A)) :
  lookup c (remove_key c d) = None.
Proof.
  induction d as [|[k' v] d IH]; [reflexivity|].
  cbn. destruct (PyStr.eqb k' c) eqn:C; cbn; rewrite ?C; auto.
Qed.

Arguments lookup : simpl never.
Arguments strip : simpl never.
Arguments q : simpl never.
Arguments eq_str : simpl never.
Arguments as_str : simpl never.
Arguments is_nil : simpl never.
Arguments key_missing : simpl never.
Arguments is_rate_limit : simpl never.
Arguments no_attribute : simpl never.
Arguments processed_text_of : simpl never.
Arguments client_request : simpl never.
Arguments format_str : simpl never.
Opaque DEFAULT_SYSTEM_PROMPT PROMPT_SEPARATOR k_text k_url k_context DEBUG_MOCK.

Lemma as_str_some v s : as_str v = Some s -> v = VStr s.
Proof. destruct v; cbv; congruence. Qed.

Lemma eq_str_true v s : eq_str v s = true -> v = VStr s.
Proof.
  unfold eq_str. destruct (as_str v) eqn:E; [|discriminate].
  intros H. apply eqb_eq in H. apply as_str_some in E. congruence.
Qed.

Lemma eq_str_same s : eq_str (VStr s) s = true.
Proof. unfold eq_str. cbn. apply eqb_refl. Qed.

Lemma lookup_some_not_nil A k (d : list (str * A)) v :
  lookup k d = Some v -> is_nil d = false.
Proof. destruct d; [discriminate | reflexivity]. Qed.

Lemma is_nil_false A (l : list A) : is_nil l = false <-> l <> [].
Proof. destruct l; cbv; split; congruence. Qed.

Lemma is_nil_true A (l : list A) : is_nil l = true <-> l = [].
Proof. destruct l; cbv; split; congruence. Qed.

Lemma starts_with_app p r : starts_with p (p ++ r) = true.
Proof.
  induction p as [|a p IH]; [reflexivity|].
  cbn. rewrite N.eqb_refl. exact IH.
Qed.

(** ** Case analysis of a run *)

Ltac break_one :=
  match goal with
  | H : context [match ?x with _ => _ end] |- _ =>
      lazymatch x with
      | context [match _ with _ => _ end] => fail
      | _ => destruct x eqn:?
      end
  | |- context [match ?x with _ => _ end] =>
      lazymatch x with
      | context [match _ with _ => _ end] => fail
      | _ => destruct x eqn:?
      end
  end.

Ltac unfold_handler :=
  unfold run_result, run_trace, missing_or_blank, object_or_empty, field,
    error_response, mock_response, success_response,
    send_api, mock_condition, received, field_condition, url_branch,
    system_prompt_of, context_condition, summarize,
    chat_completions_create, newspaper_text, get_method, contains_key,
    getitem, strip_method, and_, log, sleep, emit, try_except, bind, ret,
    raise in *.

Ltac tidy :=
  repeat match goal with
  | H : _ \/ _ |- _ => destruct H
  | H : _ /\ _ |- _ => destruct H
  | H : False |- _ => destruct H
  | H : ?a = ?a |- _ => clear H
  | H : negb _ = true |- _ => apply negb_true_iff in H
  | H : negb _ = false |- _ => apply negb_false_iff in H
  | H : eq_str _ _ = true |- _ => apply eq_str_true in H; try subst
  | H : as_str _ = Some _ |- _ => apply as_str_some in H; try subst
  | H : eq_str (VStr ?s) ?s = false |- _ => rewrite eq_str_same in H
  | H : lookup _ ?d = Some _, N : is_nil ?d = true |- _ =>
      apply lookup_some_not_nil in H; congruence
  | H : Some _ = Some _ |- _ => injection H as H; try subst
  | H : inl _ = inl _ |- _ => injection H as H; try subst
  | H : inr _ = inr _ |- _ => injection H as H; try subst
  | H : VStr _ = VStr _ |- _ => injection H as H; try subst
  | H : EvExtract _ _ = EvExtract _ _ |- _ => injection H as ? ?; try subst
  | H : EvChat _ _ = EvChat _ _ |- _ => injection H as ? ?; try subst
  | H : _ = _ |- _ => discriminate H
  end.

Ltac explore :=
  unfold_handler; cbn in *; tidy;
  repeat (break_one; cbn in *; tidy; try congruence).

Section Properties.

Variable w : world.

Lemma user_content_client p : user_content (client_request w p) = [p].
Proof. reflexivity. Qed.

Lemma key_missing_run data :
  key_missing w = true ->
  send_api w data =
    (inl (error_response NO_KEY_ERROR 500),
     [EvLog ERROR (q "OpenRouter API key not configured.")]).
Proof. intros H. unfold send_api. rewrite H. reflexivity. Qed.

(** *** The article download *)

(** An article is downloaded only for a usable [url] field, from the
    stripped URL, and what follows is decided by what the download
    gives. *)
Lemma extract_event_inv data u r :
  In (EvExtract u r) (run_trace (send_api w data)) ->
  (exists raw, field k_url data = Some (VStr raw) /\ u = strip raw
               /\ strip raw <> [])
  /\ r = article_text w u
  /\ match r with
     | inr e =>
         run_result (send_api w data)
         = inl (error_response EXTRACT_FAILED_ERROR 500)
         /\ no_chat (run_trace (send_api w data)) = true
     | inl t =>
         if is_nil (strip t) then
           run_result (send_api w data)
           = inl (error_response EXTRACT_EMPTY_ERROR 400)
           /\ no_chat (run_trace (send_api w data)) = true
         else
           forall sp, fst (system_prompt_of data) = inl sp ->
                      prompts (run_trace (send_api w data))
                      = [sp ++ PROMPT_SEPARATOR ++ t]
     end.
Proof.
  intros E. explore.
  all: repeat match goal with H : is_nil _ = _ |- _ => rewrite H end.
  all: split;
    [eexists; repeat split; [reflexivity .. | apply is_nil_false; assumption] |].
  all: split; [congruence|].
  all: auto.
  all: intros sp S; tidy; reflexivity.
Qed.

(** *** The system prompt *)

Lemma system_prompt_inv data sp :
  fst (system_prompt_of data) = inl sp ->
  match field k_context data with
  | Some v =>
      if truthy v then
        exists c, v = VStr c /\
                  sp = if is_nil (strip c) then DEFAULT_SYSTEM_PROMPT
                       else strip c
      else sp = DEFAULT_SYSTEM_PROMPT
  | None => sp = DEFAULT_SYSTEM_PROMPT
  end.
Proof.
  intros S. explore.
  all: eexists; split; [reflexivity|].
  all: match goal with H : is_nil (strip _) = _ |- _ => rewrite H end.
  all: reflexivity.
Qed.

(** *** The completion request *)

(** A completion is requested only after the text and the system prompt
    have been settled, exactly once, and its answer decides the
    response. *)
Lemma chat_event_inv data rq r :
  In (EvChat rq r) (run_trace (send_api w data)) ->
  (exists sp recv,
      fst (system_prompt_of data) = inl sp
      /\ rq = client_request w (sp ++ PROMPT_SEPARATOR ++ recv)
      /\ prompts (run_trace (send_api w data))
         = [sp ++ PROMPT_SEPARATOR ++ recv])
  /\ r = completions_create w rq
  /\ run_result (send_api w data) =
       match r with
       | inl cc => inl (success_response (processed_text_of cc))
       | inr e =>
           inl (if is_rate_limit e
                then error_response RATE_LIMIT_ERROR 429
                else error_response PROVIDER_ERROR 500)
       end.
Proof.
  intros E. explore.
  all: repeat match goal with H : is_rate_limit _ = _ |- _ => rewrite H end.
  all: split; [do 2 eexists; repeat split; reflexivity|].
  all: split; [symmetry; eassumption | reflexivity].
Qed.

(** A 200 response outside the mock path carries a completion. *)
Lemma success_inv data resp :
  run_result (send_api w data) = inl resp ->
  status resp = 200%N ->
  field k_text data <> Some (VStr DEBUG_MOCK) ->
  exists rq cc,
    In (EvChat rq (inl cc)) (run_trace (send_api w data))
    /\ resp = success_response (processed_text_of cc).
Proof.
  intros R S NM. explore.
  all: do 2 eexists; split;
    [cbn; repeat (first [left; reflexivity | right]) | reflexivity].
Qed.

(** *** The [text] branch *)


(** *** Requests without input *)

Lemma no_input_run data :
  key_missing w = false ->
  object_or_empty data = true ->
  missing_or_blank k_url data = true ->
  missing_or_blank k_text data = true ->
  send_api w data =
    (inl (error_response NO_INPUT_ERROR 400),
     [EvLog ERROR
        (q "Request JSON is missing 'text' or 'url' field, or they are empty.")]).
Proof.
  intros K O U T. explore; auto.
Qed.

(** *** The prompt of a completion request *)

Lemma custom_prompt data rq r x :
  In (EvChat rq r) (run_trace (send_api w data)) ->
  field k_context data = Some (VStr x) ->
  strip x <> [] ->
  exists text, user_content rq = [strip x ++ PROMPT_SEPARATOR ++ text].
Proof.
  intros E C NB.
  destruct (chat_event_inv _ _ _ E) as ((sp & recv & S & Q & _) & _).
  apply system_prompt_inv in S. subst rq. rewrite C in S. cbn in S.
  exists recv. rewrite user_content_client.
  destruct (is_nil x) eqn:X.
  - apply is_nil_true in X. subst x. now contradiction NB.
  - cbn in S. destruct S as (c & V & S). injection V as <-.
    apply is_nil_false in NB. rewrite NB in S. now subst sp.
Qed.

Lemma default_prompt data rq r :
  In (EvChat rq r) (run_trace (send_api w data)) ->
  match field k_context data with
  | Some v => blank_value v = true
  | None => True
  end ->
  exists text,
    user_content rq = [DEFAULT_SYSTEM_PROMPT ++ PROMPT_SEPARATOR ++ text].
Proof.
  intros E B.
  destruct (chat_event_inv _ _ _ E) as ((sp & recv & S & Q & _) & _).
  apply system_prompt_inv in S. subst rq.
  exists recv. rewrite user_content_client.
  destruct (field k_context data) as [v|]; [|now subst sp].
  unfold blank_value in B.
  destruct (truthy v); [|now subst sp].
  destruct S as (c & -> & S). cbn in B.
  change (as_str (VStr c)) with (Some c) in B. cbn in B.
  rewrite B in S. now subst sp.
Qed.

(** The system prompt of a request without a usable [context]. *)
Lemma system_prompt_default_run d :
  match lookup k_context d with
  | Some v => blank_value v = true
  | None => True
  end ->
  system_prompt_of (VDict d) =
    (inl DEFAULT_SYSTEM_PROMPT,
     [EvLog INFO (q "Using default system prompt: " ++ DEFAULT_SYSTEM_PROMPT)]).
Proof.
  intros B. unfold blank_value in B. explore; reflexivity.
Qed.

(** The handler reads an object only through its emptiness, its [text]
    and [url] fields and the system prompt it yields. *)
Lemma send_api_agree d d' :
  is_nil d = is_nil d' ->
  lookup k_text d = lookup k_text d' ->
  lookup k_url d = lookup k_url d' ->
  system_prompt_of (VDict d) = system_prompt_of (VDict d') ->
  send_api w (VDict d) = send_api w (VDict d').
Proof.
  intros N T U S.
  destruct (is_nil d') eqn:N'.
  { apply is_nil_true in N, N'. now subst. }
  unfold send_api, mock_condition, received, field_condition, url_branch,
    get_method, contains_key, getitem, and_, bind, ret.
  cbn. rewrite N, N', T, U, S. reflexivity.
Qed.

Lemma blank_context_as_absent d :
  match lookup k_context d with
  | Some v => blank_value v = true
  | None => True
  end ->
  send_api w (VDict d) = send_api w (VDict (remove_key k_context d)).
Proof.
  intros B.
  destruct (key_missing w) eqn:K.
  { now rewrite !key_missing_run. }
  assert (T : lookup k_text (remove_key k_context d) = lookup k_text d)
    by (apply lookup_remove_other; reflexivity).
  assert (U : lookup k_url (remove_key k_context d) = lookup k_url d)
    by (apply lookup_remove_other; reflexivity).
  destruct (is_nil d) eqn:N.
  { apply is_nil_true in N. subst d. reflexivity. }
  destruct (is_nil (remove_key k_context d)) eqn:N'.
  - apply is_nil_true in N'. rewrite N' in T, U. 
    rewrite N'. rewrite !no_input_run; auto.
    all: unfold missing_or_blank, field; rewrite <- ?T, <- ?U; reflexivity.
  - apply send_api_agree; try congruence.
    rewrite !system_prompt_default_run; auto.
    now rewrite lookup_remove_same.
Qed.

(** *** The [url] branch *)

(** A usable [url] is always downloaded, whatever [text] holds, unless the
    request is the mock request. *)
Lemma download_run data raw :
  key_missing w = false ->
  field k_text data <> Some (VStr DEBUG_MOCK) ->
  field k_url data = Some (VStr raw) ->
  strip raw <> [] ->
  In (EvExtract (strip raw) (article_text w (strip raw)))
     (run_trace (send_api w data)).
Proof.
  intros K NM U NB. apply is_nil_false in NB. explore.
  all: cbn; auto.
Qed.

(** ** The properties of [send_api] *)

(** C1 (amended). With the API key configured, for a request whose [text]
    is not the mock sentinel and whose [url] is a string that is not blank
    once stripped, if the download of the stripped URL yields text that is
    not blank once stripped, and the system prompt [sp] can be read from
    the request, the handler downloads that article and requests exactly
    one completion, whose prompt is [sp], the separator and the extracted
    text: [url] takes precedence over whatever the [text] field holds. *)
Theorem extracted_text_is_forwarded data raw t sp :
  key_missing w = false ->
  field k_text data <> Some (VStr DEBUG_MOCK) ->
  field k_url data = Some (VStr raw) ->
  strip raw <> [] ->
  article_text w (strip raw) = inl t ->
  strip t <> [] ->
  fst (system_prompt_of data) = inl sp ->
  In (EvExtract (strip raw) (inl t)) (run_trace (send_api w data))
  /\ prompts (run_trace (send_api w data)) = [sp ++ PROMPT_SEPARATOR ++ t].
Proof.
  intros K NM U NB A T S.
  pose proof (download_run _ K NM U NB) as E. rewrite A in E.
  split; [exact E|].
  destruct (extract_event_inv _ _ _ E) as (_ & _ & C).
  apply is_nil_false in T. rewrite T in C.
  apply C. exact S.
Qed.

(** C2 (amended). With the API key configured, a request whose [text] is
    ["DEBUG_MOCK"] gets the fixed mock response with status 200, whatever
    its other fields hold; the handler sleeps one second and neither
    downloads an article nor requests a completion. *)
Theorem mock_short_circuit data :
  key_missing w = false ->
  field k_text data = Some (VStr DEBUG_MOCK) ->
  run_result (send_api w data) = inl mock_response
  /\ no_outbound (run_trace (send_api w data)) = true
  /\ In (EvSleep 1) (run_trace (send_api w data)).
Proof.
  intros K T. explore. auto.
Qed.

(** C3. When [OPENROUTER_API_KEY] is not set, every request, whatever its
    body, gets status 500 with an error body, and the handler neither
    downloads an article nor requests a completion. *)
Theorem missing_key_is_500 data :
  OPENROUTER_API_KEY w = None ->
  run_result (send_api w data) = inl (error_response NO_KEY_ERROR 500)
  /\ no_outbound (run_trace (send_api w data)) = true.
Proof.
  intros K.
  assert (M : key_missing w = true) by (unfold key_missing; now rewrite K).
  rewrite (key_missing_run data M). split; reflexivity.
Qed.

(** C4 (amended). With the API key configured, a request whose body is a
    JSON object (or a value that tests false) in which [url] and [text]
    are each missing or blank gets status 400 with an error body. *)
Theorem no_input_is_400 data :
  key_missing w = false ->
  object_or_empty data = true ->
  missing_or_blank k_url data = true ->
  missing_or_blank k_text data = true ->
  run_result (send_api w data) = inl (error_response NO_INPUT_ERROR 400)
  /\ no_outbound (run_trace (send_api w data)) = true.
Proof.
  intros K O U T. rewrite (no_input_run _ K O U T). split; reflexivity.
Qed.

(** C5. When the article download completes with text that is empty once
    stripped, the response is 400 with an error body; when it raises an
    exception, the exception is caught and the response is 500 with an
    error body; in both cases no completion is requested. *)
Theorem extraction_failure_responses data u :
  (forall t,
      In (EvExtract u (inl t)) (run_trace (send_api w data)) ->
      strip t = [] ->
      run_result (send_api w data)
      = inl (error_response EXTRACT_EMPTY_ERROR 400)
      /\ no_chat (run_trace (send_api w data)) = true)
  /\ (forall e,
         In (EvExtract u (inr e)) (run_trace (send_api w data)) ->
         run_result (send_api w data)
         = inl (error_response EXTRACT_FAILED_ERROR 500)
         /\ no_chat (run_trace (send_api w data)) = true).
Proof.
  split.
  - intros t E T.
    destruct (extract_event_inv _ _ _ E) as (_ & _ & C).
    apply is_nil_true in T. rewrite T in C. exact C.
  - intros e E.
    destruct (extract_event_inv _ _ _ E) as (_ & _ & C). exact C.
Qed.

(** C6. When the completion request raises a rate-limit error the response
    is 429 with the rate-limit message; when it raises any other exception
    the response is 500 with one fixed message, the same for every
    exception: the text of the exception is no part of it. *)
Theorem provider_error_responses data rq e :
  In (EvChat rq (inr e)) (run_trace (send_api w data)) ->
  run_result (send_api w data) =
    inl (if is_rate_limit e
         then error_response RATE_LIMIT_ERROR 429
         else error_response PROVIDER_ERROR 500).
Proof.
  intros E. destruct (chat_event_inv _ _ _ E) as (_ & _ & R). exact R.
Qed.

(** C7 (amended). The one prompt of a completion request begins with the
    [context] string of the request stripped of surrounding whitespace,
    when that is not empty, and with the default system prompt when the
    request has no [context]. *)
Theorem prompt_begins_with_instruction data rq r :
  In (EvChat rq r) (run_trace (send_api w data)) ->
  exists p,
    user_content rq = [p]
    /\ (forall x, field k_context data = Some (VStr x) -> strip x <> [] ->
                  starts_with (strip x) p = true)
    /\ (field k_context data = None ->
        starts_with DEFAULT_SYSTEM_PROMPT p = true).
Proof.
  intros E.
  destruct (chat_event_inv _ _ _ E) as ((sp & recv & _ & Q & _) & _).
  exists (sp ++ PROMPT_SEPARATOR ++ recv).
  split; [subst rq; apply user_content_client|]. split.
  - intros x C NB.
    destruct (custom_prompt _ _ _ E C NB) as (text & P).
    rewrite Q, user_content_client in P. injection P as ->.
    apply starts_with_app.
  - intros C.
    destruct (default_prompt data _ _ E) as (text & P); [now rewrite C|].
    rewrite Q, user_content_client in P. injection P as ->.
    apply starts_with_app.
Qed.

(** The [processed_text] of a 200 response outside the mock path, case by
    case on the completion: the text content of the first choice's message
    when it has one, [null] when that message has no content, and the
    fixed, non-empty placeholder when the completion has no choices or its
    first choice has no message. *)
Lemma processed_text_of_success data resp :
  run_result (send_api w data) = inl resp ->
  status resp = 200%N ->
  field k_text data <> Some (VStr DEBUG_MOCK) ->
  exists rq cc,
    In (EvChat rq (inl cc)) (run_trace (send_api w data))
    /\ (forall s, model_content cc = Some s ->
                  field k_processed_text (body resp) = Some (VStr s))
    /\ (forall m, first_message cc = Some m -> content m = None ->
                  field k_processed_text (body resp) = Some VNone)
    /\ (first_message cc = None ->
        field k_processed_text (body resp)
        = Some (VStr NO_CONTENT_PLACEHOLDER))
    /\ NO_CONTENT_PLACEHOLDER <> [].
Proof.
  intros R S NM.
  destruct (success_inv _ R S NM) as (rq & cc & E & ->).
  exists rq, cc. split; [exact E|].
  unfold model_content, first_message, success_response, processed_text_of.
  repeat split.
  - intros s. destruct (choices cc) as [[|c0 l]|]; try discriminate.
    destruct (message c0) as [m|]; try discriminate.
    intros ->. reflexivity.
  - intros m. destruct (choices cc) as [[|c0 l]|]; try discriminate.
    intros ->. intros ->. reflexivity.
  - destruct (choices cc) as [[|c0 l]|]; try reflexivity.
    destruct (message c0) as [m|]; [discriminate | reflexivity].
  - discriminate.
Qed.

(** C9. When the request that reaches the completion request has a
    [context] that is blank (a value that tests false, or a string that is
    empty once stripped), the prompt is built from the default system
    prompt, and the whole run is the one of the same request without its
    [context]. *)
Theorem blank_context_uses_default data rq r v :
  In (EvChat rq r) (run_trace (send_api w data)) ->
  field k_context data = Some v ->
  blank_value v = true ->
  (exists text,
      user_content rq = [DEFAULT_SYSTEM_PROMPT ++ PROMPT_SEPARATOR ++ text])
  /\ send_api w data = send_api w (without_context data).
Proof.
  intros E C B. split.
  - apply (default_prompt data _ _ E). now rewrite C.
  - destruct data; try discriminate C. cbn in C |- *.
    apply blank_context_as_absent. now rewrite C.
Qed.


End Properties.

Transparent DEFAULT_SYSTEM_PROMPT PROMPT_SEPARATOR k_text k_url k_context
  DEBUG_MOCK.

(** ** The properties on sample requests *)

Lemma extracted_text_is_forwarded_witness :
  In (EvExtract (strip (q " https://example.com/news "))
                (inl (q "article body")))
     (run_trace (send_api w_ok req_url_and_text))
  /\ prompts (run_trace (send_api w_ok req_url_and_text))
     = [DEFAULT_SYSTEM_PROMPT ++ PROMPT_SEPARATOR ++ q "article body"].
Proof.
  apply (@extracted_text_is_forwarded w_ok req_url_and_text
           (q " https://example.com/news ") (q "article body")
           DEFAULT_SYSTEM_PROMPT).
  - vm_compute. reflexivity.
  - vm_compute. discriminate.
  - vm_compute. reflexivity.
  - vm_compute. discriminate.
  - vm_compute. reflexivity.
  - vm_compute. discriminate.
  - vm_compute. reflexivity.
Defined.

(** C1, as stated, fails: the key is configured, [url] is not blank, [text]
    is not the mock sentinel and the download yields the non-empty text
    [" "]; the response is 400 and no prompt is sent. *)
Lemma blank_article_is_not_forwarded :
  key_missing w_blank_article = false
  /\ field k_text req_url_and_text <> Some (VStr DEBUG_MOCK)
  /\ field k_url req_url_and_text = Some (VStr (q " https://example.com/news "))
  /\ strip (q " https://example.com/news ") = news_url
  /\ news_url <> []
  /\ article_text w_blank_article news_url = inl (q " ")
  /\ q " " <> []
  /\ In (EvExtract news_url (inl (q " ")))
        (run_trace (send_api w_blank_article req_url_and_text))
  /\ prompts (run_trace (send_api w_blank_article req_url_and_text)) = []
  /\ run_result (send_api w_blank_article req_url_and_text)
     = inl (error_response EXTRACT_EMPTY_ERROR 400).
Proof.
  vm_compute. repeat split; try discriminate. right; left; reflexivity.
Qed.

Lemma mock_short_circuit_witness :
  run_result (send_api w_ok req_mock) = inl mock_response
  /\ no_outbound (run_trace (send_api w_ok req_mock)) = true
  /\ In (EvSleep 1) (run_trace (send_api w_ok req_mock)).
Proof.
  apply (@mock_short_circuit w_ok req_mock); vm_compute; reflexivity.
Defined.

(** C2, as stated, fails: without the API key the mock request gets 500. *)
Lemma mock_without_key_is_500 :
  field k_text req_mock = Some (VStr DEBUG_MOCK)
  /\ run_result (send_api w_no_key req_mock)
     = inl (error_response NO_KEY_ERROR 500)
  /\ run_result (send_api w_no_key req_mock) <> inl mock_response.
Proof.
  vm_compute. repeat split; discriminate.
Qed.

Lemma missing_key_is_500_witness :
  run_result (send_api w_no_key req_mock) = inl (error_response NO_KEY_ERROR 500)
  /\ no_outbound (run_trace (send_api w_no_key req_mock)) = true.
Proof.
  apply (@missing_key_is_500 w_no_key req_mock). vm_compute. reflexivity.
Defined.

Lemma no_input_is_400_witness :
  run_result (send_api w_ok req_blank) = inl (error_response NO_INPUT_ERROR 400)
  /\ no_outbound (run_trace (send_api w_ok req_blank)) = true.
Proof.
  apply (@no_input_is_400 w_ok req_blank); vm_compute; reflexivity.
Defined.

(** C4, as stated, fails: without the API key the empty request gets 500. *)
Lemma no_input_without_key_is_500 :
  field k_url req_empty = None
  /\ field k_text req_empty = None
  /\ run_result (send_api w_no_key req_empty)
     = inl (error_response NO_KEY_ERROR 500)
  /\ status (error_response NO_KEY_ERROR 500) <> 400%N.
Proof.
  vm_compute. repeat split; discriminate.
Qed.

Lemma extraction_failure_responses_witness :
  (run_result (send_api w_blank_article req_url_and_text)
   = inl (error_response EXTRACT_EMPTY_ERROR 400)
   /\ no_chat (run_trace (send_api w_blank_article req_url_and_text)) = true)
  /\ (run_result (send_api w_download_fails req_url_and_text)
      = inl (error_response EXTRACT_FAILED_ERROR 500)
      /\ no_chat (run_trace (send_api w_download_fails req_url_and_text)) = true).
Proof.
  split.
  - apply (proj1 (@extraction_failure_responses w_blank_article
                    req_url_and_text news_url) (q " ")).
    + vm_compute. right; left; reflexivity.
    + vm_compute. reflexivity.
  - apply (proj2 (@extraction_failure_responses w_download_fails
                    req_url_and_text news_url) article_exception).
    vm_compute. right; left; reflexivity.
Defined.

Lemma provider_error_responses_witness :
  run_result (send_api w_rate_limited req_text)
  = inl (error_response RATE_LIMIT_ERROR 429)
  /\ run_result (send_api w_provider_down req_text)
     = inl (error_response PROVIDER_ERROR 500).
Proof.
  split.
  - apply (@provider_error_responses w_rate_limited req_text
             (client_request w_rate_limited
                (DEFAULT_SYSTEM_PROMPT ++ PROMPT_SEPARATOR ++ q "raw text"))
             rate_limit_error).
    vm_compute. right; left; reflexivity.
  - apply (@provider_error_responses w_provider_down req_text
             (client_request w_provider_down
                (DEFAULT_SYSTEM_PROMPT ++ PROMPT_SEPARATOR ++ q "raw text"))
             connection_error).
    vm_compute. right; left; reflexivity.
Defined.

Lemma prompt_begins_with_instruction_witness :
  exists p,
    user_content
      (client_request w_ok (q "be brief" ++ PROMPT_SEPARATOR ++ q " raw text "))
    = [p]
    /\ (forall x, field k_context req_padded = Some (VStr x) -> strip x <> [] ->
                  starts_with (strip x) p = true)
    /\ (field k_context req_padded = None ->
        starts_with DEFAULT_SYSTEM_PROMPT p = true).
Proof.
  apply (@prompt_begins_with_instruction w_ok req_padded _
           (inl summary_completion)).
  vm_compute. right; left; reflexivity.
Defined.

(** C7, as stated, fails: the context [" be brief"] is not blank, and the
    prompt begins with ["be brief"], not with the context as it was sent. *)
Lemma context_prefix_is_stripped :
  In (EvChat
        (client_request w_ok (q "be brief" ++ PROMPT_SEPARATOR ++ q " raw text "))
        (inl summary_completion))
     (run_trace (send_api w_ok req_padded))
  /\ field k_context req_padded = Some (VStr (q " be brief"))
  /\ strip (q " be brief") <> []
  /\ starts_with (q " be brief")
       (q "be brief" ++ PROMPT_SEPARATOR ++ q " raw text ") = false
  /\ starts_with (q "be brief")
       (q "be brief" ++ PROMPT_SEPARATOR ++ q " raw text ") = true.
Proof.
  vm_compute. repeat split; try discriminate. right; left; reflexivity.
Qed.

Lemma processed_text_of_success_witness :
  exists rq cc,
    In (EvChat rq (inl cc)) (run_trace (send_api w_ok req_text))
    /\ (forall s, model_content cc = Some s ->
                  field k_processed_text
                    (body (success_response (VStr (q "summary"))))
                  = Some (VStr s))
    /\ (forall m, first_message cc = Some m -> content m = None ->
                  field k_processed_text
                    (body (success_response (VStr (q "summary"))))
                  = Some VNone)
    /\ (first_message cc = None ->
        field k_processed_text (body (success_response (VStr (q "summary"))))
        = Some (VStr NO_CONTENT_PLACEHOLDER))
    /\ NO_CONTENT_PLACEHOLDER <> [].
Proof.
  apply (@processed_text_of_success w_ok req_text
           (success_response (VStr (q "summary")))).
  - vm_compute. reflexivity.
  - reflexivity.
  - vm_compute. discriminate.
Defined.

(** C8, at the failing input: the provider answers with one choice whose
    message has no content. The response is 200 and its [processed_text]
    is [null], not the placeholder the claim promises, although a
    completion without choices, or whose first choice has no message, does
    get the placeholder. *)
Lemma null_content_is_not_placeholder :
  run_result (send_api w_null_content req_text) = inl (success_response VNone)
  /\ status (success_response VNone) = 200%N
  /\ In (EvChat
           (client_request w_null_content
              (DEFAULT_SYSTEM_PROMPT ++ PROMPT_SEPARATOR ++ q "raw text"))
           (inl null_content_completion))
        (run_trace (send_api w_null_content req_text))
  /\ model_content null_content_completion = None
  /\ field k_processed_text (body (success_response VNone)) = Some VNone
  /\ VNone <> VStr NO_CONTENT_PLACEHOLDER
  /\ run_result (send_api w_no_choices req_text)
     = inl (success_response (VStr NO_CONTENT_PLACEHOLDER))
  /\ run_result (send_api w_no_message req_text)
     = inl (success_response (VStr NO_CONTENT_PLACEHOLDER)).
Proof.
  vm_compute. repeat split; try discriminate. right; left; reflexivity.
Qed.

Lemma blank_context_uses_default_witness :
  (exists text,
      user_content
        (client_request w_ok
           (DEFAULT_SYSTEM_PROMPT ++ PROMPT_SEPARATOR ++ q "raw text"))
      = [DEFAULT_SYSTEM_PROMPT ++ PROMPT_SEPARATOR ++ text])
  /\ send_api w_ok req_blank_context
     = send_api w_ok (without_context req_blank_context).
Proof.
  apply (@blank_context_uses_default w_ok req_blank_context _
           (inl summary_completion) (VStr (q "   "))).
  - vm_compute. right; left; reflexivity.
  - vm_compute. reflexivity.
  - vm_compute. reflexivity.
Defined.


(** ** Facts about [strip] *)

Lemma lstrip_idem s : lstrip (lstrip s) = lstrip s.
Proof.
  induction s as [|c s IH]; [reflexivity|].
  cbn. destruct (isspace c) eqn:C; [exact IH|]. cbn. now rewrite C.
Qed.

Lemma lstrip_keeps_tail a c b :
  isspace c = false -> lstrip (a ++ c :: b) = lstrip a ++ c :: b.
Proof.
  intros C. induction a as [|x a IH]; cbn.
  - now rewrite C.
  - destruct (isspace x); [exact IH | reflexivity].
Qed.

Lemma rstrip_cons c t : isspace c = false -> rstrip (c :: t) = c :: rstrip t.
Proof.
  intros C. unfold rstrip. cbn.
  rewrite lstrip_keeps_tail by exact C. rewrite rev_app_distr. reflexivity.
Qed.

Lemma rstrip_idem t : rstrip (rstrip t) = rstrip t.
Proof. unfold rstrip. now rewrite rev_involutive, lstrip_idem. Qed.

Lemma lstrip_head s :
  match lstrip s with [] => True | c :: _ => isspace c = false end.
Proof.
  induction s as [|c s IH]; cbn; [exact I|].
  destruct (isspace c) eqn:C; [exact IH|]. cbn. exact C.
Qed.

Lemma strip_idem s : strip (strip s) = strip s.
Proof.
  unfold strip. pose proof (lstrip_head s) as H.
  destruct (lstrip s) as [|c t]; [reflexivity|].
  rewrite rstrip_cons by exact H. cbn [lstrip]. rewrite H.
  rewrite rstrip_cons by exact H. now rewrite rstrip_idem.
Qed.

(** ** More case analyses of a run *)

Opaque DEFAULT_SYSTEM_PROMPT PROMPT_SEPARATOR k_text k_url k_context DEBUG_MOCK.

Section MoreProperties.

Variable w : world.

Lemma response_shapes data resp :
  run_result (send_api w data) = inl resp ->
  resp = mock_response
  \/ (exists cc, resp = success_response (processed_text_of cc))
  \/ In resp error_responses.
Proof.
  intros R. unfold error_responses. explore.
  all: cbn; auto 10.
  all: right; left; eexists; reflexivity.
Qed.

Lemma escape_inv data e :
  run_result (send_api w data) = inr e ->
  exn_cls e = AttributeError /\ no_chat (run_trace (send_api w data)) = true.
Proof.
  intros R. explore.
  all: split; reflexivity.
Qed.

Lemma well_typed_returns data :
  well_typed data = true ->
  exists resp, run_result (send_api w data) = inl resp.
Proof.
  unfold well_typed, str_or_absent. intros T.
  repeat (apply andb_prop in T; destruct T as [T ?]).
  explore.
  all: eexists; reflexivity.
Qed.

Lemma outbound_shapes data :
  outbound (run_trace (send_api w data)) = []
  \/ (exists u r, outbound (run_trace (send_api w data)) = [EvExtract u r])
  \/ (exists rq r, outbound (run_trace (send_api w data)) = [EvChat rq r])
  \/ (exists u t rq r,
         outbound (run_trace (send_api w data))
         = [EvExtract u (inl t); EvChat rq r]).
Proof.
  unfold outbound. explore.
  all: cbn; eauto 10.
Qed.

Lemma no_key_inv data :
  run_result (send_api w data) = inl (error_response NO_KEY_ERROR 500) ->
  key_missing w = true.
Proof.
  intros R. destruct (key_missing w) eqn:K; [reflexivity|]. explore.
Qed.

Lemma mock_run data :
  key_missing w = false ->
  field k_text data = Some (VStr DEBUG_MOCK) ->
  send_api w data =
    (inl mock_response,
     [EvLog INFO (q "Returning a mock response for debugging."); EvSleep 1]).
Proof. intros K T. explore; reflexivity. Qed.

Lemma mock_inv data :
  run_result (send_api w data) = inl mock_response ->
  key_missing w = false /\ field k_text data = Some (VStr DEBUG_MOCK).
Proof.
  intros R. explore. all: split; reflexivity.
Qed.

Lemma sleep_inv data n :
  In (EvSleep n) (run_trace (send_api w data)) ->
  n = 1%N /\ run_result (send_api w data) = inl mock_response.
Proof.
  intros E. explore.
  all: match goal with H : EvSleep _ = EvSleep _ |- _ => injection H as <- end.
  all: split; reflexivity.
Qed.

Lemma download_needs data u r :
  In (EvExtract u r) (run_trace (send_api w data)) ->
  key_missing w = false /\ field k_text data <> Some (VStr DEBUG_MOCK).
Proof.
  intros E. explore.
  all: split; [reflexivity|]; intros X; tidy; congruence.
Qed.

Lemma chat_event_parts data rq r :
  In (EvChat rq r) (run_trace (send_api w data)) ->
  key_missing w = false
  /\ exists sp recv,
       rq = client_request w (sp ++ PROMPT_SEPARATOR ++ recv)
       /\ strip recv <> [] /\ sp <> [] /\ strip sp = sp.
Proof.
  intros E. explore.
  all: split; [reflexivity|]; do 2 eexists; split; [reflexivity|].
  all: split; [apply is_nil_false; assumption|].
  all: split;
    [first [apply is_nil_false; assumption | vm_compute; discriminate]
    |first [apply strip_idem | vm_compute; reflexivity]].
Qed.

Lemma extract_exception_logged data u e :
  In (EvExtract u (inr e)) (run_trace (send_api w data)) ->
  exists pre, In (EvLog ERROR (pre ++ exn_msg e)) (run_trace (send_api w data)).
Proof.
  intros E. explore.
  all: match goal with
       | |- context [EvLog ERROR (?a ++ ?x ++ ?b ++ exn_msg _)] =>
           exists (a ++ x ++ b)
       end.
  all: rewrite <- !app_assoc; cbn; auto.
Qed.

Lemma chat_exception_logged data rq e :
  In (EvChat rq (inr e)) (run_trace (send_api w data)) ->
  exists l pre,
    l <> INFO
    /\ In (EvLog l (pre ++ exn_msg e)) (run_trace (send_api w data)).
Proof.
  intros E. explore.
  all: do 2 eexists; split;
    [|cbn; repeat (first [left; reflexivity | right])].
  all: discriminate.
Qed.

Lemma alarm_iff_failure data resp :
  run_result (send_api w data) = inl resp ->
  existsb is_alarm (run_trace (send_api w data))
  = negb (status resp =? 200)%N.
Proof.
  intros R. explore. all: reflexivity.
Qed.

Lemma rate_limit_inv data resp :
  run_result (send_api w data) = inl resp ->
  status resp = 429%N ->
  exists rq e,
    In (EvChat rq (inr e)) (run_trace (send_api w data))
    /\ is_rate_limit e = true.
Proof.
  intros R S. explore.
  all: do 2 eexists; split;
    [cbn; repeat (first [left; reflexivity | right]) | assumption].
Qed.

Lemma bad_body_run data :
  key_missing w = false ->
  object_or_empty data = false ->
  send_api w data = (inr (no_attribute data (q "get")), []).
Proof. intros K O. explore; reflexivity. Qed.

Lemma system_prompt_agree d d' :
  lookup k_context d = lookup k_context d' ->
  system_prompt_of (VDict d) = system_prompt_of (VDict d').
Proof.
  intros C.
  unfold system_prompt_of, context_condition, contains_key, getitem, and_,
    bind, ret.
  cbn. now rewrite C.
Qed.

Lemma not_mock_eq_str d :
  lookup k_text d <> Some (VStr DEBUG_MOCK) ->
  eq_str match lookup k_text d with Some v => v | None => VNone end DEBUG_MOCK
  = false.
Proof.
  intros NM. destruct (lookup k_text d) as [v|]; [|reflexivity].
  destruct (eq_str v DEBUG_MOCK) eqn:E; [|reflexivity].
  apply eq_str_true in E. congruence.
Qed.

Lemma url_run_agree d d' raw :
  lookup k_url d = Some (VStr raw) ->
  lookup k_url d' = Some (VStr raw) ->
  strip raw <> [] ->
  lookup k_context d = lookup k_context d' ->
  lookup k_text d <> Some (VStr DEBUG_MOCK) ->
  lookup k_text d' <> Some (VStr DEBUG_MOCK) ->
  send_api w (VDict d) = send_api w (VDict d').
Proof.
  intros U U' NB C M M'.
  pose proof (lookup_some_not_nil _ _ U) as N.
  pose proof (lookup_some_not_nil _ _ U') as N'.
  apply is_nil_false in NB. apply not_mock_eq_str in M, M'.
  apply system_prompt_agree in C.
  unfold send_api, mock_condition, received, field_condition, url_branch,
    get_method, contains_key, getitem, strip_method, and_, bind, ret.
  cbn. rewrite N, N', M, M', U, U'. cbn.
  change (as_str (VStr raw)) with (Some raw). cbn. rewrite NB. cbn.
  rewrite C. reflexivity.
Qed.

End MoreProperties.

Transparent DEFAULT_SYSTEM_PROMPT PROMPT_SEPARATOR k_text k_url k_context
  DEBUG_MOCK.

(** ** Further properties of [send_api] *)

(** X1. Every response of the view has status 200, 400, 429 or 500; a 200
    body holds a [message] string and [processed_text]; every other
    response is one of six fixed error responses. *)
Theorem response_has_known_shape (w : world) data resp :
  run_result (send_api w data) = inl resp ->
  In (status resp) [200; 400; 429; 500]%N
  /\ (status resp = 200%N ->
      exists m p,
        body resp = jsonify [(k_message, VStr m); (k_processed_text, p)])
  /\ (status resp <> 200%N -> In resp error_responses).
Proof.
  intros R.
  destruct (@response_shapes w data resp R) as [-> | [(cc & ->) | E]].
  - cbn. split; [auto|]. split; [eauto | congruence].
  - cbn. split; [auto|]. split; [eauto | congruence].
  - split; [|split; [|auto]].
    + cbn in E. repeat destruct E as [<- | E]; cbn; auto 6; contradiction.
    + intros S. cbn in E.
      repeat destruct E as [<- | E]; first [discriminate S | contradiction].
Qed.

(** X2. The only exception that leaves the view is an [AttributeError],
    and no completion has been requested when it is raised. *)
Theorem only_attribute_error_escapes (w : world) data e :
  run_result (send_api w data) = inr e ->
  exn_cls e = AttributeError
  /\ no_chat (run_trace (send_api w data)) = true.
Proof. apply escape_inv. Qed.

(** X3. A well-typed body always gets a response: the view raises
    nothing, whatever the downloader and the provider do. *)
Theorem well_typed_request_gets_response (w : world) data :
  well_typed data = true ->
  exists resp, run_result (send_api w data) = inl resp.
Proof. apply well_typed_returns. Qed.

(** X4. A run makes at most one article download and at most one completion
    request; when it makes both the download comes first and has returned
    text. *)
Theorem outbound_calls_are_single_and_ordered (w : world) data :
  outbound (run_trace (send_api w data)) = []
  \/ (exists u r, outbound (run_trace (send_api w data)) = [EvExtract u r])
  \/ (exists rq r, outbound (run_trace (send_api w data)) = [EvChat rq r])
  \/ (exists u t rq r,
         outbound (run_trace (send_api w data))
         = [EvExtract u (inl t); EvChat rq r]).
Proof. apply outbound_shapes. Qed.

(** X5. The URL handed to the downloader is never empty and has no
    surrounding whitespace. *)
Theorem download_url_is_stripped (w : world) data u r :
  In (EvExtract u r) (run_trace (send_api w data)) ->
  u <> [] /\ strip u = u.
Proof.
  intros E.
  destruct (@extract_event_inv w data u r E) as ((raw & _ & -> & NB) & _).
  split; [exact NB | apply strip_idem].
Qed.

(** X6. The response "API key is not configured" is returned exactly when
    [OPENROUTER_API_KEY] is unset or empty. *)
Theorem no_key_response_iff (w : world) data :
  run_result (send_api w data) = inl (error_response NO_KEY_ERROR 500)
  <-> key_missing w = true.
Proof.
  split; [apply no_key_inv|].
  intros K. now rewrite (@key_missing_run w data K).
Qed.

(** X7. The mock response is returned exactly when the key is configured
    and [text] is the string ["DEBUG_MOCK"] itself. *)
Theorem mock_response_iff (w : world) data :
  run_result (send_api w data) = inl mock_response
  <-> key_missing w = false /\ field k_text data = Some (VStr DEBUG_MOCK).
Proof.
  split; [apply mock_inv|].
  intros (K & T). now rewrite (@mock_run w data K T).
Qed.

(** X8. The view sleeps only on the mock path, and then for one second. *)
Theorem sleep_iff_mock (w : world) data n :
  In (EvSleep n) (run_trace (send_api w data))
  <-> n = 1%N /\ run_result (send_api w data) = inl mock_response.
Proof.
  split; [apply sleep_inv|].
  intros (-> & R). apply mock_inv in R. destruct R as (K & T).
  rewrite (@mock_run w data K T). cbn. auto.
Qed.

(** X9. An article is downloaded exactly when the key is configured, the
    request is not the mock request and [url] is a string that is not
    blank; the URL downloaded is the stripped field. *)
Theorem download_iff (w : world) data u :
  (exists r, In (EvExtract u r) (run_trace (send_api w data)))
  <-> key_missing w = false
      /\ field k_text data <> Some (VStr DEBUG_MOCK)
      /\ exists raw, field k_url data = Some (VStr raw)
                     /\ strip raw <> [] /\ u = strip raw.
Proof.
  split.
  - intros (r & E).
    destruct (@download_needs w data u r E) as (K & NM).
    destruct (@extract_event_inv w data u r E) as ((raw & U & -> & NB) & _).
    repeat split; auto. now exists raw.
  - intros (K & NM & raw & U & NB & ->).
    eexists. now apply download_run.
Qed.

(** X10. When [url] is usable the [text] field is not read beyond the mock
    test: two objects with the same [url] and [context], neither of them a
    mock request, have the same run. *)
Theorem url_run_ignores_text (w : world) d d' raw :
  lookup k_url d = Some (VStr raw) ->
  lookup k_url d' = Some (VStr raw) ->
  strip raw <> [] ->
  lookup k_context d = lookup k_context d' ->
  lookup k_text d <> Some (VStr DEBUG_MOCK) ->
  lookup k_text d' <> Some (VStr DEBUG_MOCK) ->
  send_api w (VDict d) = send_api w (VDict d').
Proof. apply url_run_agree. Qed.

(** X11. The text of an exception raised by the downloader or by the
    provider ends a log message above [INFO]. *)
Theorem exception_text_is_logged (w : world) data :
  (forall u e,
      In (EvExtract u (inr e)) (run_trace (send_api w data)) ->
      exists pre,
        In (EvLog ERROR (pre ++ exn_msg e)) (run_trace (send_api w data)))
  /\ (forall rq e,
         In (EvChat rq (inr e)) (run_trace (send_api w data)) ->
         exists l pre,
           l <> INFO
           /\ In (EvLog l (pre ++ exn_msg e)) (run_trace (send_api w data))).
Proof.
  split.
  - intros u e. apply extract_exception_logged.
  - intros rq e. apply chat_exception_logged.
Qed.

(** X12. A run logs above [INFO] exactly when its response is not 200. *)
Theorem alarm_logged_iff_failure (w : world) data resp :
  run_result (send_api w data) = inl resp ->
  existsb is_alarm (run_trace (send_api w data))
  = negb (status resp =? 200)%N.
Proof. apply alarm_iff_failure. Qed.

(** X13. The status is 429 exactly when the completion request raised a
    rate-limit error. *)
Theorem rate_limit_status_iff (w : world) data resp :
  run_result (send_api w data) = inl resp ->
  status resp = 429%N
  <-> exists rq e,
        In (EvChat rq (inr e)) (run_trace (send_api w data))
        /\ is_rate_limit e = true.
Proof.
  intros R. split; [now apply rate_limit_inv|].
  intros (rq & e & E & L).
  destruct (@chat_event_inv w data rq (inr e) E) as (_ & _ & R').
  rewrite L in R'. unfold run_result in *. rewrite R in R'.
  injection R' as ->. reflexivity.
Qed.

(** X14. Every completion request goes to the OpenRouter base URL for the
    fixed model, with the configured, non-empty key, the two headers read
    from the environment, and one message of role [user]. *)
Theorem completion_request_parameters (w : world) data rq r :
  In (EvChat rq r) (run_trace (send_api w data)) ->
  base_url rq = OPENROUTER_BASE_URL
  /\ model rq = MODEL_NAME
  /\ OPENROUTER_API_KEY w = Some (api_key rq)
  /\ api_key rq <> []
  /\ default_headers rq
     = [(q "HTTP-Referer", SITE_URL w); (q "X-Title", APP_NAME w)]
  /\ exists p, messages rq = [(q "user", p)].
Proof.
  intros E.
  destruct (@chat_event_parts w data rq r E) as (K & sp & recv & -> & _).
  unfold key_missing in K. unfold client_request. cbn.
  destruct (OPENROUTER_API_KEY w) as [k|]; [|discriminate].
  apply is_nil_false in K. repeat split; eauto.
Qed.

(** X15. In every prompt sent to the model the system prompt is non-empty
    and stripped, and the text after the separator is not blank. *)
Theorem prompt_parts_are_not_blank (w : world) data rq r :
  In (EvChat rq r) (run_trace (send_api w data)) ->
  exists sp recv,
    user_content rq = [sp ++ PROMPT_SEPARATOR ++ recv]
    /\ sp <> [] /\ strip sp = sp /\ strip recv <> [].
Proof.
  intros E.
  destruct (@chat_event_parts w data rq r E) as (_ & sp & recv & -> & NB & NE & S).
  exists sp, recv. repeat split; auto.
Qed.

(** X16. With the key configured, a body that tests true and is not an
    object (a non-empty array or string, a non-zero number, [true]) makes
    the view raise [AttributeError] before it logs or calls anything. *)
Theorem non_object_body_raises (w : world) data :
  key_missing w = false ->
  object_or_empty data = false ->
  send_api w data = (inr (no_attribute data (q "get")), []).
Proof. apply bad_body_run. Qed.

(** ** The further properties on sample requests *)

Lemma response_has_known_shape_witness :
  In (status (error_response RATE_LIMIT_ERROR 429)) [200; 400; 429; 500]%N
  /\ (status (error_response RATE_LIMIT_ERROR 429) = 200%N ->
      exists m p,
        body (error_response RATE_LIMIT_ERROR 429)
        = jsonify [(k_message, VStr m); (k_processed_text, p)])
  /\ (status (error_response RATE_LIMIT_ERROR 429) <> 200%N ->
      In (error_response RATE_LIMIT_ERROR 429) error_responses).
Proof.
  apply (@response_has_known_shape w_rate_limited req_text).
  vm_compute. reflexivity.
Defined.

Lemma only_attribute_error_escapes_witness :
  exn_cls (no_attribute (VInt 5) (q "strip")) = AttributeError
  /\ no_chat (run_trace (send_api w_ok req_bad_context)) = true.
Proof.
  apply (@only_attribute_error_escapes w_ok req_bad_context).
  vm_compute. reflexivity.
Defined.

Lemma well_typed_request_gets_response_witness :
  exists resp, run_result (send_api w_ok req_padded) = inl resp.
Proof.
  apply (@well_typed_request_gets_response w_ok req_padded).
  vm_compute. reflexivity.
Defined.

Lemma download_url_is_stripped_witness :
  news_url <> [] /\ strip news_url = news_url.
Proof.
  apply (@download_url_is_stripped w_ok req_url_and_text news_url
           (inl (q "article body"))).
  vm_compute. right; left; reflexivity.
Defined.

Lemma no_key_response_iff_witness :
  run_result (send_api w_no_key req_text)
  = inl (error_response NO_KEY_ERROR 500).
Proof.
  apply (proj2 (@no_key_response_iff w_no_key req_text)).
  vm_compute. reflexivity.
Defined.

Lemma mock_response_iff_witness :
  key_missing w_ok = false /\ field k_text req_mock = Some (VStr DEBUG_MOCK).
Proof.
  apply (proj1 (@mock_response_iff w_ok req_mock)).
  vm_compute. reflexivity.
Defined.

Lemma sleep_iff_mock_witness :
  1%N = 1%N /\ run_result (send_api w_ok req_mock) = inl mock_response.
Proof.
  apply (proj1 (@sleep_iff_mock w_ok req_mock 1%N)).
  vm_compute. right; left; reflexivity.
Defined.

Lemma download_iff_witness :
  exists r, In (EvExtract news_url r)
               (run_trace (send_api w_ok req_url_and_text)).
Proof.
  apply (proj2 (@download_iff w_ok req_url_and_text news_url)).
  split; [vm_compute; reflexivity|].
  split; [vm_compute; discriminate|].
  exists (q " https://example.com/news ").
  repeat split; vm_compute; first [reflexivity | discriminate].
Defined.

Lemma url_run_ignores_text_witness :
  send_api w_ok req_url_and_text = send_api w_ok req_url_only.
Proof.
  apply (@url_run_ignores_text w_ok _ _ (q " https://example.com/news "));
    vm_compute; first [reflexivity | discriminate].
Defined.

Lemma exception_text_is_logged_witness :
  (exists pre,
      In (EvLog ERROR (pre ++ exn_msg article_exception))
         (run_trace (send_api w_download_fails req_url_and_text)))
  /\ (exists l pre,
         l <> INFO
         /\ In (EvLog l (pre ++ exn_msg rate_limit_error))
               (run_trace (send_api w_rate_limited req_text))).
Proof.
  split.
  - apply (proj1 (@exception_text_is_logged w_download_fails req_url_and_text)
             news_url).
    vm_compute. right; left; reflexivity.
  - apply (proj2 (@exception_text_is_logged w_rate_limited req_text)
             (client_request w_rate_limited
                (DEFAULT_SYSTEM_PROMPT ++ PROMPT_SEPARATOR ++ q "raw text"))).
    vm_compute. right; left; reflexivity.
Defined.

Lemma alarm_logged_iff_failure_witness :
  existsb is_alarm (run_trace (send_api w_provider_down req_text))
  = negb (status (error_response PROVIDER_ERROR 500) =? 200)%N.
Proof.
  apply (@alarm_logged_iff_failure w_provider_down req_text).
  vm_compute. reflexivity.
Defined.

Lemma rate_limit_status_iff_witness :
  exists rq e,
    In (EvChat rq (inr e)) (run_trace (send_api w_rate_limited req_text))
    /\ is_rate_limit e = true.
Proof.
  apply (proj1 (@rate_limit_status_iff w_rate_limited req_text
                  (error_response RATE_LIMIT_ERROR 429) eq_refl)).
  reflexivity.
Defined.

Lemma completion_request_parameters_witness :
  base_url (client_request w_ok
              (DEFAULT_SYSTEM_PROMPT ++ PROMPT_SEPARATOR ++ q "raw text"))
  = OPENROUTER_BASE_URL
  /\ model (client_request w_ok
              (DEFAULT_SYSTEM_PROMPT ++ PROMPT_SEPARATOR ++ q "raw text"))
     = MODEL_NAME
  /\ OPENROUTER_API_KEY w_ok
     = Some (api_key (client_request w_ok
                        (DEFAULT_SYSTEM_PROMPT ++ PROMPT_SEPARATOR
                           ++ q "raw text")))
  /\ api_key (client_request w_ok
                (DEFAULT_SYSTEM_PROMPT ++ PROMPT_SEPARATOR ++ q "raw text"))
     <> []
  /\ default_headers
       (client_request w_ok
          (DEFAULT_SYSTEM_PROMPT ++ PROMPT_SEPARATOR ++ q "raw text"))
     = [(q "HTTP-Referer", SITE_URL w_ok); (q "X-Title", APP_NAME w_ok)]
  /\ exists p,
       messages (client_request w_ok
                   (DEFAULT_SYSTEM_PROMPT ++ PROMPT_SEPARATOR ++ q "raw text"))
       = [(q "user", p)].
Proof.
  apply (@completion_request_parameters w_ok req_text _
           (inl summary_completion)).
  vm_compute. right; left; reflexivity.
Defined.

Lemma prompt_parts_are_not_blank_witness :
  exists sp recv,
    user_content
      (client_request w_ok (q "be brief" ++ PROMPT_SEPARATOR ++ q " raw text "))
    = [sp ++ PROMPT_SEPARATOR ++ recv]
    /\ sp <> [] /\ strip sp = sp /\ strip recv <> [].
Proof.
  apply (@prompt_parts_are_not_blank w_ok req_padded _
           (inl summary_completion)).
  vm_compute. right; left; reflexivity.
Defined.

Lemma non_object_body_raises_witness :
  send_api w_ok req_array = (inr (no_attribute req_array (q "get")), []).
Proof.
  apply (@non_object_body_raises w_ok req_array); vm_compute; reflexivity.
Defined.
